(** * flow-forecast: the early-stopping guard and the preprocessing helpers

    A shallow embedding of [flood_forecast/training_utils.py] (class
    [EarlyStopper]) together with the gap-filling and cyclical-encoding
    helpers exercised by [tests/test_preprocessing.py].

    Python [float] is IEEE 754 binary64, which is what Rocq's primitive
    [float] is; Python [int] is unbounded, hence [Z]. *)

From Stdlib Require Import ZArith List Bool String Lia.
From Stdlib Require Import Floats.
From Stdlib Require Import Reals Lra.
Import ListNotations.

Local Open Scope Z_scope.

(** ** Python comparison operators on floats

    [PrimFloat] only has [<?] and [<=?]; Python's [>] and [>=] are their
    flipped versions (all four answer [False] as soon as a NaN is involved). *)

Definition float_gtb (x y : float) : bool := PrimFloat.ltb y x.
Definition float_geb (x y : float) : bool := PrimFloat.leb y x.

(** ** The torch side: models and the effects of a call *)

(** What [check_loss] needs from its [model] argument: a [state_dict()]. *)
Class TorchModule (M : Type) := {
  StateDict : Type;
  state_dict : M -> StateDict
}.

(** The observable effects of the methods: [torch.save(obj, path)] and
    [print(n)], in program order. *)
Inductive Effect (SD : Type) : Type :=
| TorchSave (obj : SD) (path : string)
| Print (n : Z).
Arguments TorchSave {SD} obj path.
Arguments Print {SD} n.

Inductive Exception : Type :=
| ValueError (msg : string).

Module EarlyStopper.

(** The instance attributes set by [__init__]. *)
Record t : Type := mk {
  patience : Z;
  min_delta : float;
  cumulative_delta : bool;
  counter : Z;
  best_score : option float
}.

Definition set_counter (c : Z) (self : t) : t :=
  mk (patience self) (min_delta self) (cumulative_delta self) c (best_score self).

Definition set_best_score (b : option float) (self : t) : t :=
  mk (patience self) (min_delta self) (cumulative_delta self) (counter self) b.

(** [EarlyStopper.__init__]: the two guards raise, otherwise the five
    attributes are assigned. *)
Definition __init__ (patience : Z) (min_delta : float) (cumulative_delta : bool)
  : Exception + t :=
  if patience <? 1 then
    inl (ValueError "Argument patience should be positive integer.")
  else if PrimFloat.ltb min_delta 0%float then
    inl (ValueError "Argument min_delta should not be a negative number.")
  else
    inr (mk patience min_delta cumulative_delta 0 None).

(** *** A small monad for method bodies

    A method reads and writes [self] and emits effects. *)
Section Methods.

Context {M : Type} `{TorchModule M}.

Definition Method (A : Type) : Type := t -> A * t * list (Effect StateDict).

Definition ret {A} (a : A) : Method A := fun self => (a, self, []).

Definition bind {A B} (m : Method A) (k : A -> Method B) : Method B :=
  fun self =>
    let '(a, self1, out1) := m self in
    let '(b, self2, out2) := k a self1 in
    (b, self2, out1 ++ out2).

Definition get : Method t := fun self => (self, self, []).
Definition modify (f : t -> t) : Method unit := fun self => (tt, f self, []).
Definition emit (e : Effect StateDict) : Method unit := fun self => (tt, self, [e]).

Notation "x <- m ;; k" := (bind m (fun x => k))
  (at level 61, m at next level, right associativity).
Notation "m ;;; k" := (bind m (fun _ => k))
  (at level 61, right associativity).

(** [save_model_checkpoint]: [torch.save(model.state_dict(), "checkpoint.pth")]. *)
Definition save_model_checkpoint (model : M) : Method unit :=
  emit (TorchSave (state_dict model) "checkpoint.pth").

(** [check_loss], statement by statement. *)
Definition check_loss (model : M) (validation_loss : float) : Method bool :=
  let score := validation_loss in
  self <- get ;;
  match best_score self with
  | None =>
      save_model_checkpoint model ;;;
      modify (set_best_score (Some score)) ;;;
      ret true
  | Some best =>
      if float_geb (score + min_delta self)%float best then
        (if negb (cumulative_delta self) && float_gtb score best
         then modify (set_best_score (Some score))
         else ret tt) ;;;
        modify (fun s => set_counter (counter s + 1) s) ;;;
        self' <- get ;;
        emit (Print (counter self')) ;;;
        if counter self' >=? patience self' then ret false else ret true
      else
        save_model_checkpoint model ;;;
        modify (set_best_score (Some score)) ;;;
        modify (set_counter 0) ;;;
        ret true
  end.

(** The three components of what a method call produces. *)
Definition result {A} (r : A * t * list (Effect StateDict)) : A := fst (fst r).
Definition state {A} (r : A * t * list (Effect StateDict)) : t := snd (fst r).
Definition effects {A} (r : A * t * list (Effect StateDict))
  : list (Effect StateDict) := snd r.

(** The condition of the [elif] of [check_loss], read on the state the call
    starts from: the call takes the branch that increments [counter]. *)
Definition no_improvement (self : t) (score : float) : bool :=
  match best_score self with
  | None => false
  | Some best => float_geb (score + min_delta self)%float best
  end.

(** The training loop of the callers, without its [break]: one [check_loss]
    per evaluation, answers collected in call order. *)
Fixpoint run (calls : list (M * float)) : Method (list bool) :=
  match calls with
  | [] => ret []
  | (model, validation_loss) :: rest =>
      b <- check_loss model validation_loss ;;
      bs <- run rest ;;
      ret (b :: bs)
  end.

(** Every call of the sequence takes the [elif] branch, each one judged on
    the state its predecessors left. *)
Fixpoint all_no_improvement (calls : list (M * float)) (self : t) : bool :=
  match calls with
  | [] => true
  | (model, validation_loss) :: rest =>
      no_improvement self validation_loss
      && all_no_improvement rest (state (check_loss model validation_loss self))
  end.

(** The guards a program can hold: built by [__init__], then used. *)
Inductive reachable : t -> Prop :=
| reachable_init p d c self :
    __init__ p d c = inr self -> reachable self
| reachable_call self model validation_loss :
    reachable self ->
    reachable (state (check_loss model validation_loss self)).

Definition is_save (e : Effect StateDict) : bool :=
  match e with
  | TorchSave _ _ => true
  | Print _ => false
  end.

(** Every call of the sequence takes the first-call branch or the [else]
    branch, each one judged on the state its predecessors left. *)
Fixpoint all_reset (calls : list (M * float)) (self : t) : bool :=
  match calls with
  | [] => true
  | (model, validation_loss) :: rest =>
      negb (no_improvement self validation_loss)
      && all_reset rest (state (check_loss model validation_loss self))
  end.

(** *** What the effects do to the files

    [torch.save(obj, path)] replaces whatever [path] held by [obj];
    [print] touches no file. *)
Definition Files : Type := string -> option StateDict.

Definition torch_save (obj : StateDict) (path : string) (fs : Files) : Files :=
  fun p => if String.eqb p path then Some obj else fs p.

Definition perform1 (e : Effect StateDict) (fs : Files) : Files :=
  match e with
  | TorchSave obj path => torch_save obj path fs
  | Print _ => fs
  end.

(** The effects of a call or of a run, carried out in program order. *)
Fixpoint perform (out : list (Effect StateDict)) (fs : Files) : Files :=
  match out with
  | [] => fs
  | e :: rest => perform rest (perform1 e fs)
  end.

End Methods.

End EarlyStopper.

(** ** Tables *)

(** Modelled from the spec: the time-series table the preprocessing works
    on (a pandas [DataFrame] in the tests), seen column by column: the
    labels in column order, each with its cells, one per row. *)
Definition DataFrame (A : Type) : Type := list (string * list A).

(** Modelled from the spec: [df.columns], the labels in order. *)
Definition columns {A} (df : DataFrame A) : list string := map fst df.

(** Modelled from the spec: [df[label]], the first column so labelled. *)
Definition column {A} (df : DataFrame A) (label : string) : option (list A) :=
  option_map snd (find (fun c => String.eqb (fst c) label) df).

(** Modelled from the spec: the number of rows each column holds, in column
    order. *)
Definition row_counts {A} (df : DataFrame A) : list nat :=
  map (fun c => List.length (snd c)) df.

(** ** [flood_forecast.preprocessing.interpolate_preprocess]

    Numeric columns hold floats, and a missing value is a NaN. *)
Module InterpolatePreprocess.

(** Modelled from the spec: a missing value. *)
Definition isna (x : float) : bool := PrimFloat.is_nan x.

(** Modelled from the spec: forward fill, which the source tree does not
    contain. A missing cell takes the last value seen above it; [last] is a
    NaN as long as nothing has been seen. *)
Fixpoint ffill_from (last : float) (col : list float) : list float :=
  match col with
  | [] => []
  | x :: rest =>
      if isna x then last :: ffill_from last rest else x :: ffill_from x rest
  end.

(** Modelled from the spec: forward fill of a whole column. *)
Definition ffill (col : list float) : list float := ffill_from nan col.

(** Modelled from the spec: backward fill, which the source tree does not
    contain. A missing cell takes the first value below it. *)
Fixpoint bfill (col : list float) : list float :=
  match col with
  | [] => []
  | x :: rest =>
      let filled := bfill rest in
      (if isna x then hd nan filled else x) :: filled
  end.

(** Modelled from the spec: [back_forward_generic], imported by the tests
    but absent from the source tree. Each named column is forward filled
    first, and what is still missing, at the start of the series, is filled
    backward; the other columns are handed back as they are. *)
Definition back_forward_generic (df : DataFrame float)
    (relevant_columns : list string) : DataFrame float :=
  map (fun c =>
         if existsb (String.eqb (fst c)) relevant_columns
         then (fst c, bfill (ffill (snd c)))
         else c) df.

End InterpolatePreprocess.

(** ** [flood_forecast.preprocessing.temporal_feats]

    The encoding is stated over the real numbers: the table cells are
    timestamps, reals or text. *)
Module TemporalFeats.

(** Modelled from the spec: a parsed timestamp, by the fields the units
    read. *)
Record Timestamp : Type := mkTimestamp {
  year : Z;
  month : Z;
  day : Z;
  hour : Z;
  day_of_week : Z
}.

(** Modelled from the spec: what a cell of the table can hold. *)
Inductive Cell : Type :=
| CTime (ts : Timestamp)
| CNum (x : R)
| CText (s : string).

(** Modelled from the spec: reading a cell as a timestamp. *)
Definition to_datetime (c : Cell) : option Timestamp :=
  match c with
  | CTime ts => Some ts
  | CNum _ | CText _ => None
  end.

(** Modelled from the spec: all the cells of a column as timestamps, or
    nothing if one is not. *)
Fixpoint parse_times (col : list Cell) : option (list Timestamp) :=
  match col with
  | [] => Some []
  | c :: rest =>
      match to_datetime c, parse_times rest with
      | Some ts, Some tss => Some (ts :: tss)
      | _, _ => None
      end
  end.

(** Modelled from the spec: the units and their natural cycle lengths, 24
    for the hour, 7 for the day of the week, 12 for the month. *)
Definition unit_field (unit : string) : option ((Timestamp -> Z) * Z) :=
  if String.eqb unit "hour" then Some (hour, 24)
  else if String.eqb unit "day_of_week" then Some (day_of_week, 7)
  else if String.eqb unit "month" then Some (month, 12)
  else None.

(** Modelled from the spec: the sine and cosine of [2π * value / period]. *)
Definition angle (value period : Z) : R := (2 * PI * IZR value / IZR period)%R.

(** Modelled from the spec: the sine column, one cell per row. *)
Definition sin_feature (field : Timestamp -> Z) (period : Z)
    (times : list Timestamp) : list Cell :=
  map (fun ts => CNum (sin (angle (field ts) period))) times.

(** Modelled from the spec: the cosine column, likewise. *)
Definition cos_feature (field : Timestamp -> Z) (period : Z)
    (times : list Timestamp) : list Cell :=
  map (fun ts => CNum (cos (angle (field ts) period))) times.

(** Modelled from the spec: one entry of the encoding request. A
    ["cyclical"] entry appends [sin_<unit>] and [cos_<unit>]; an unknown
    unit is an invalid argument; entries of another kind add nothing. *)
Definition encode_entry (times : list Timestamp) (entry : string * string)
    (df : DataFrame Cell) : Exception + DataFrame Cell :=
  let '(unit, kind) := entry in
  if String.eqb kind "cyclical" then
    match unit_field unit with
    | None => inl (ValueError "unknown time unit")
    | Some (field, period) =>
        inr (df ++ [(String.append "sin_" unit, sin_feature field period times);
                    (String.append "cos_" unit, cos_feature field period times)])
    end
  else inr df.

(** Modelled from the spec: the entries of the request, in order, stopping
    at the first failure. *)
Fixpoint encode_entries (times : list Timestamp) (entries : list (string * string))
    (df : DataFrame Cell) : Exception + DataFrame Cell :=
  match entries with
  | [] => inr df
  | entry :: rest =>
      match encode_entry times entry df with
      | inl e => inl e
      | inr df' => encode_entries times rest df'
      end
  end.

(** Modelled from the spec: [feature_fix], imported by the tests but absent
    from the source tree. The time column must be there and parse as
    timestamps; the entries are then encoded in order. *)
Definition feature_fix (preprocess_params : list (string * string))
    (dt_column : string) (df : DataFrame Cell) : Exception + DataFrame Cell :=
  match column df dt_column with
  | None => inl (ValueError "no such time column")
  | Some col =>
      match parse_times col with
      | None => inl (ValueError "time column is not a timestamp")
      | Some times => encode_entries times preprocess_params df
      end
  end.

End TemporalFeats.

(** ** A concrete model class for the worked examples: its parameters are a
    list of weights, and [state_dict()] hands them out. *)
#[export] Instance WeightList : TorchModule (list float) := {
  StateDict := list float;
  state_dict := fun w => w
}.

(** Inputs of the worked examples. *)
Module Examples.

Definition w : list float := [0.5; -1.25]%float.

Definition farm : DataFrame float :=
  [("NumberOfAnimals"%string, [100; nan; nan; 165; nan]%float);
   ("Rain"%string, [nan; 0.5; nan; 1; nan]%float)].

Definition stamps : list TemporalFeats.Timestamp :=
  [TemporalFeats.mkTimestamp 2020 3 14 0 5;
   TemporalFeats.mkTimestamp 2020 3 14 6 5].

Definition readings : DataFrame TemporalFeats.Cell :=
  [("datetime"%string, map TemporalFeats.CTime stamps);
   ("height"%string, [TemporalFeats.CNum 1; TemporalFeats.CNum 2]%R)].

End Examples.

(** * Facts about float comparisons used below *)

Module FloatFacts.

Lemma Prim2SF_zero : Prim2SF 0%float = S754_zero false.
Proof. reflexivity. Qed.

(** [0 <= d] excludes [d < 0] (and excludes a NaN [d] as well). *)
Lemma nonneg_not_neg (d : float) :
  PrimFloat.leb 0 d = true -> PrimFloat.ltb d 0 = false.
Proof.
  rewrite leb_spec, ltb_spec, Prim2SF_zero.
  destruct (Prim2SF d) as [s | s | | s m e]; try destruct s;
    cbn; congruence.
Qed.

(** [>=] is reflexive away from NaN. *)
Lemma geb_refl (x : float) :
  PrimFloat.is_nan x = false -> float_geb x x = true.
Proof.
  unfold PrimFloat.is_nan, float_geb. rewrite eqb_spec, leb_spec.
  unfold SFeqb, SFleb.
  destruct (SFcompare (Prim2SF x) (Prim2SF x)) as [[| |]|]; cbn; congruence.
Qed.

End FloatFacts.

(** * Properties of the early-stopping guard *)

Module EarlyStopperFacts.
Import EarlyStopper.

Section Calls.

Context {M : Type} `{TorchModule M}.

(** *** The three branches of [check_loss] as equations *)

Lemma check_loss_first (self : t) (model : M) (score : float) :
  best_score self = None ->
  check_loss model score self
  = (true, set_best_score (Some score) self,
     [TorchSave (state_dict model) "checkpoint.pth"]).
Proof.
  intros Hb. unfold check_loss, bind, get. rewrite Hb. reflexivity.
Qed.

Lemma check_loss_elif (self : t) (model : M) (score best : float) :
  best_score self = Some best ->
  float_geb (score + min_delta self)%float best = true ->
  check_loss model score self
  = (negb (counter self + 1 >=? patience self),
     set_counter (counter self + 1)
       (if negb (cumulative_delta self) && float_gtb score best
        then set_best_score (Some score) self else self),
     [Print (counter self + 1)]).
Proof.
  intros Hb Hge. unfold check_loss, bind, get. rewrite Hb, Hge.
  destruct (negb (cumulative_delta self) && float_gtb score best); cbn;
    destruct (counter self + 1 >=? patience self); reflexivity.
Qed.

Lemma check_loss_else (self : t) (model : M) (score best : float) :
  best_score self = Some best ->
  float_geb (score + min_delta self)%float best = false ->
  check_loss model score self
  = (true, set_counter 0 (set_best_score (Some score) self),
     [TorchSave (state_dict model) "checkpoint.pth"]).
Proof.
  intros Hb Hge. unfold check_loss, bind, get. rewrite Hb, Hge. reflexivity.
Qed.

(** The same, by the branch predicate. *)
Lemma no_improvement_true (self : t) (score : float) :
  no_improvement self score = true ->
  exists best, best_score self = Some best
               /\ float_geb (score + min_delta self)%float best = true.
Proof.
  unfold no_improvement. destruct (best_score self) as [b|]; [|discriminate].
  intros Hge. exists b. split; [reflexivity | exact Hge].
Qed.

Lemma no_improvement_false (self : t) (model : M) (score : float) :
  no_improvement self score = false ->
  check_loss model score self
  = (true,
     set_counter (match best_score self with None => counter self | Some _ => 0 end)
       (set_best_score (Some score) self),
     [TorchSave (state_dict model) "checkpoint.pth"]).
Proof.
  unfold no_improvement. destruct (best_score self) as [b|] eqn:Hb; intros Hn.
  - rewrite (check_loss_else self model score b Hb Hn). reflexivity.
  - rewrite (check_loss_first self model score Hb).
    unfold set_counter, set_best_score. cbn. reflexivity.
Qed.

(** *** Runs of calls *)

Lemma run_cons (model : M) (score : float) (rest : list (M * float)) (self : t) :
  result (run ((model, score) :: rest) self)
  = result (check_loss model score self)
    :: result (run rest (state (check_loss model score self))).
Proof.
  cbn [run]. unfold bind, ret, result, state.
  destruct (check_loss model score self) as [[b self1] out1]. cbn.
  destruct (run rest self1) as [[bs self2] out2]. reflexivity.
Qed.

(** On the [elif] branch the answer is decided by the counter alone, and the
    configuration is carried over. *)
Lemma elif_step (self : t) (model : M) (score : float) :
  no_improvement self score = true ->
  result (check_loss model score self) = negb (counter self + 1 >=? patience self)
  /\ counter (state (check_loss model score self)) = counter self + 1
  /\ patience (state (check_loss model score self)) = patience self.
Proof.
  intros Hn. destruct (no_improvement_true self score Hn) as [b [Hb Hge]].
  rewrite (check_loss_elif self model score b Hb Hge).
  destruct (negb (cumulative_delta self) && float_gtb score b);
    unfold result, state; cbn; repeat split; reflexivity.
Qed.

(** A run of [elif] calls that ends exactly when the counter meets
    [patience]: all answers but the last are [True]. *)
Lemma countdown (calls : list (M * float)) :
  forall self : t,
    calls <> [] ->
    counter self + Z.of_nat (List.length calls) = patience self ->
    all_no_improvement calls self = true ->
    result (run calls self) = repeat true (List.length calls - 1) ++ [false].
Proof.
  induction calls as [|[model score] rest IH]; intros self Hne Hlen Hall.
  - congruence.
  - cbn [all_no_improvement] in Hall. apply andb_true_iff in Hall.
    destruct Hall as [Hn Hrest].
    destruct (elif_step self model score Hn) as [Hres [Hc Hp]].
    rewrite run_cons, Hres.
    destruct rest as [|call rest'].
    + cbn in Hlen. cbn.
      replace (counter self + 1 >=? patience self) with true
        by (symmetry; apply Z.geb_le; lia).
      reflexivity.
    + rewrite (IH (state (check_loss model score self)));
        [ | discriminate | rewrite Hc, Hp; cbn [List.length] in *; lia | exact Hrest ].
      cbn [List.length] in *.
      replace (counter self + 1 >=? patience self) with false
        by (symmetry; apply not_true_is_false; rewrite Z.geb_le; lia).
      replace (S (S (List.length rest')) - 1)%nat with (S (S (List.length rest') - 1))
        by lia.
      reflexivity.
Qed.

(** Once the counter has met [patience], a run of [elif] calls answers
    [False] throughout. *)
Lemma exhausted_run (calls : list (M * float)) :
  forall self : t,
    patience self <= counter self ->
    all_no_improvement calls self = true ->
    result (run calls self) = repeat false (List.length calls).
Proof.
  induction calls as [|[model score] rest IH]; intros self Hex Hall.
  - reflexivity.
  - cbn [all_no_improvement] in Hall. apply andb_true_iff in Hall.
    destruct Hall as [Hn Hrest].
    destruct (elif_step self model score Hn) as [Hres [Hc Hp]].
    rewrite run_cons, Hres, IH; [ | rewrite Hc, Hp; lia | exact Hrest ].
    replace (counter self + 1 >=? patience self) with true
      by (symmetry; apply Z.geb_le; lia).
    reflexivity.
Qed.

Lemma init_ok (p : Z) (d : float) (c : bool) (self : t) :
  __init__ p d c = inr self ->
  1 <= p /\ PrimFloat.ltb d 0 = false /\ self = mk p d c 0 None.
Proof.
  unfold __init__. destruct (p <? 1) eqn:Hp; [discriminate|].
  destruct (PrimFloat.ltb d 0); [discriminate|].
  intros Heq. injection Heq as <-. apply Z.ltb_ge in Hp. auto.
Qed.

(** C1. A guard built with patience [p], after its first call, fed [p]
    calls that each take the no-improvement branch: the first [p - 1]
    answer [True] (continue) and the [p]-th, and only it, answers [False]. *)
Theorem patience_window (p : Z) (d : float) (c : bool) (self : t)
    (model0 : M) (score0 : float) (calls : list (M * float)) :
  __init__ p d c = inr self ->
  List.length calls = Z.to_nat p ->
  all_no_improvement calls (state (check_loss model0 score0 self)) = true ->
  result (run calls (state (check_loss model0 score0 self)))
  = repeat true (Z.to_nat p - 1) ++ [false].
Proof.
  intros Hinit Hlen Hall.
  destruct (init_ok p d c self Hinit) as [Hp [_ ->]].
  rewrite check_loss_first in * by reflexivity.
  unfold state in *. cbn [fst snd] in *.
  rewrite <- Hlen. apply countdown.
  - intros ->. cbn in Hlen. lia.
  - cbn. rewrite Hlen. lia.
  - exact Hall.
Qed.

(** A call always leaves a best score behind, and so does a run started on
    a guard that has one. *)
Lemma best_after_call (self : t) (model : M) (score : float) :
  best_score (state (check_loss model score self)) <> None.
Proof.
  destruct (no_improvement self score) eqn:Hn.
  - destruct (no_improvement_true self score Hn) as [b [Hb Hge]].
    rewrite (check_loss_elif self model score b Hb Hge).
    destruct (negb (cumulative_delta self) && float_gtb score b);
      unfold state; cbn; congruence.
  - rewrite (no_improvement_false self model score Hn).
    unfold state. cbn. discriminate.
Qed.

Lemma run_state_cons (model : M) (score : float) (rest : list (M * float))
    (self : t) :
  state (run ((model, score) :: rest) self)
  = state (run rest (state (check_loss model score self))).
Proof.
  cbn [run]. unfold bind, ret, state.
  destruct (check_loss model score self) as [[b self1] out1]. cbn.
  destruct (run rest self1) as [[bs self2] out2]. reflexivity.
Qed.

Lemma best_after_run (calls : list (M * float)) :
  forall self : t,
    best_score self <> None -> best_score (state (run calls self)) <> None.
Proof.
  induction calls as [|[model score] rest IH]; intros self Hb.
  - exact Hb.
  - rewrite run_state_cons. apply IH, best_after_call.
Qed.

(** A call off the no-improvement branch, on a guard that has a best
    score: the [else] branch. *)
Lemma reset_answer (self : t) (model : M) (score : float) :
  best_score self <> None ->
  no_improvement self score = false ->
  result (check_loss model score self) = true
  /\ counter (state (check_loss model score self)) = 0.
Proof.
  intros Hb Hn. rewrite (no_improvement_false self model score Hn).
  unfold result, state. cbn. split; [reflexivity|].
  destruct (best_score self); [reflexivity | congruence].
Qed.

(** C3 (amended). The no-improvement call on which the counter meets
    [patience] answers [False], and so does every call of the unbroken run
    of no-improvement calls that follows it.  The guard has no terminal
    state: the first call with a sufficient improvement
    ([score + min_delta >= best_score] false), right after the stop or
    after such a run, sets the counter back to [0] and answers [True]. *)
Theorem stop_until_improvement (self : t) (model : M) (score : float)
    (calls : list (M * float)) :
  no_improvement self score = true ->
  patience self <= counter self + 1 ->
  let self1 := state (check_loss model score self) in
  result (check_loss model score self) = false
  /\ (all_no_improvement calls self1 = true ->
      result (run calls self1) = repeat false (List.length calls)
      /\ forall (model' : M) (score' : float),
           no_improvement (state (run calls self1)) score' = false ->
           result (check_loss model' score' (state (run calls self1))) = true
           /\ counter (state (check_loss model' score' (state (run calls self1))))
              = 0)
  /\ (forall (model' : M) (score' : float),
        no_improvement self1 score' = false ->
        result (check_loss model' score' self1) = true
        /\ counter (state (check_loss model' score' self1)) = 0).
Proof.
  intros Hn Hp self1.
  destruct (elif_step self model score Hn) as [Hres [Hc Hpat]].
  assert (Hb1 : best_score self1 <> None) by apply best_after_call.
  split; [|split].
  - rewrite Hres. apply negb_false_iff, Z.geb_le. lia.
  - intros Hall. split.
    + apply exhausted_run; [|exact Hall]. subst self1. rewrite Hc, Hpat. lia.
    + intros model' score'. apply reset_answer, best_after_run, Hb1.
  - intros model' score'. apply reset_answer, Hb1.
Qed.

(** C4 (amended). A call writes the checkpoint exactly when it does not take
    the no-improvement branch (the first call, or a sufficient improvement):
    one [torch.save] of the model's [state_dict()] to ["checkpoint.pth"],
    on a call that sets [best_score] to the score.  Whenever [best_score]
    changes, that write occurs on the same call, unless [cumulative_delta]
    is off and the call is a no-improvement call with a score above
    [best_score], which raises [best_score] and writes nothing. *)
Theorem checkpoint_on_reset (self : t) (model : M) (score : float) :
  let r := check_loss model score self in
  (no_improvement self score = false ->
     effects r = [TorchSave (state_dict model) "checkpoint.pth"]
     /\ best_score (state r) = Some score)
  /\ (no_improvement self score = true ->
     effects r = [Print (counter self + 1)])
  /\ (forall obj path, In (TorchSave obj path) (effects r) ->
        path = "checkpoint.pth"%string /\ obj = state_dict model)
  /\ (best_score (state r) <> best_score self ->
      existsb is_save (effects r) = true
      \/ (cumulative_delta self = false
          /\ no_improvement self score = true
          /\ exists best, best_score self = Some best
                          /\ float_gtb score best = true)).
Proof.
  intros r. subst r.
  destruct (no_improvement self score) eqn:Hn.
  - destruct (no_improvement_true self score Hn) as [b [Hb Hge]].
    rewrite (check_loss_elif self model score b Hb Hge).
    unfold effects, state. cbn [fst snd].
    split; [discriminate|]. split; [|split].
    + intros _. reflexivity.
    + intros obj path [Hin|[]]. discriminate.
    + intros Hchange. right.
      destruct (cumulative_delta self); [cbn in Hchange; congruence|].
      destruct (float_gtb score b) eqn:Hgt; [|cbn in Hchange; congruence].
      repeat split. exists b. split; [exact Hb | exact Hgt].
  - rewrite (no_improvement_false self model score Hn).
    unfold effects, state. cbn [fst snd].
    split; [|split; [discriminate|split]].
    + intros _. split; reflexivity.
    + intros obj path [Hin|[]]. injection Hin as <- <-. split; reflexivity.
    + intros _. left. reflexivity.
Qed.

(** C5. On a no-improvement call whose score is strictly greater than
    [best_score], the counter is incremented and [best_score] becomes the
    score when [cumulative_delta] is off, and stays as it was when it is on. *)
Theorem best_seen_tracking (self : t) (model : M) (best score : float) :
  best_score self = Some best ->
  float_geb (score + min_delta self)%float best = true ->
  float_gtb score best = true ->
  let r := check_loss model score self in
  counter (state r) = counter self + 1
  /\ (cumulative_delta self = false -> best_score (state r) = Some score)
  /\ (cumulative_delta self = true -> best_score (state r) = Some best).
Proof.
  intros Hb Hge Hgt r. subst r.
  rewrite (check_loss_elif self model score best Hb Hge), Hgt.
  unfold state. cbn [fst snd].
  destruct (cumulative_delta self); cbn; repeat split; congruence.
Qed.

(** C7. On a guard fresh from [__init__], the first call, whatever the
    score, saves the checkpoint, records the score as [best_score], leaves
    the counter at [0] and answers [True]. *)
Theorem first_call (p : Z) (d : float) (c : bool) (self : t)
    (model : M) (score : float) :
  __init__ p d c = inr self ->
  check_loss model score self
  = (true, mk p d c 0 (Some score),
     [TorchSave (state_dict model) "checkpoint.pth"]).
Proof.
  intros Hinit. destruct (init_ok p d c self Hinit) as [_ [_ ->]].
  apply check_loss_first. reflexivity.
Qed.

(** Any call leaves the three configuration attributes alone and cannot
    make the counter negative. *)
Lemma check_loss_frame (self : t) (model : M) (score : float) :
  let self' := state (check_loss model score self) in
  patience self' = patience self
  /\ min_delta self' = min_delta self
  /\ cumulative_delta self' = cumulative_delta self
  /\ (0 <= counter self -> 0 <= counter self').
Proof.
  cbn zeta. destruct (no_improvement self score) eqn:Hn.
  - destruct (no_improvement_true self score Hn) as [b [Hb Hge]].
    rewrite (check_loss_elif self model score b Hb Hge).
    destruct (negb (cumulative_delta self) && float_gtb score b);
      unfold state; cbn; repeat split; lia.
  - rewrite (no_improvement_false self model score Hn).
    unfold state. cbn. repeat split.
    destruct (best_score self); lia.
Qed.

Lemma reachable_counter (self : t) : reachable self -> 0 <= counter self.
Proof.
  induction 1 as [p d c self Hinit | self model score _ IH].
  - destruct (init_ok p d c self Hinit) as [_ [_ ->]]. cbn. lia.
  - apply check_loss_frame. exact IH.
Qed.

(** C10. A call changes neither [patience] nor [min_delta] nor
    [cumulative_delta]; on every guard obtained from [__init__] by calls,
    the counter is a non-negative integer before and after the call. *)
Theorem frame_and_counter (self : t) (model : M) (score : float) :
  let self' := state (check_loss model score self) in
  (patience self' = patience self
   /\ min_delta self' = min_delta self
   /\ cumulative_delta self' = cumulative_delta self)
  /\ (reachable self -> 0 <= counter self /\ 0 <= counter self').
Proof.
  cbn zeta.
  destruct (check_loss_frame self model score) as [Hp [Hd [Hc Hn]]].
  repeat split; try assumption.
  - apply reachable_counter; assumption.
  - apply Hn, reachable_counter; assumption.
Qed.

(** The threshold of the [elif], on a guard whose best score is [S]: a
    score with [score + min_delta >= S] false saves the checkpoint, sets the
    counter to [0] and [best_score] to the score and answers [True]; a score
    with [score + min_delta >= S] increments the counter, and that
    comparison is boundary-inclusive: [score + min_delta = S] increments it
    too. *)
Theorem reset_threshold (self : t) (model : M) (S score : float) :
  best_score self = Some S ->
  let r := check_loss model score self in
  (float_geb (score + min_delta self)%float S = false ->
     result r = true
     /\ counter (state r) = 0
     /\ best_score (state r) = Some score
     /\ effects r = [TorchSave (state_dict model) "checkpoint.pth"])
  /\ (float_geb (score + min_delta self)%float S = true ->
     counter (state r) = counter self + 1)
  /\ ((score + min_delta self)%float = S -> PrimFloat.is_nan S = false ->
     counter (state r) = counter self + 1).
Proof.
  intros Hb r. subst r.
  assert (Hinc : float_geb (score + min_delta self)%float S = true ->
                 counter (state (check_loss model score self)) = counter self + 1).
  { intros Hge. rewrite (check_loss_elif self model score S Hb Hge).
    destruct (negb (cumulative_delta self) && float_gtb score S); reflexivity. }
  split; [|split].
  - intros Hlt. rewrite (check_loss_else self model score S Hb Hlt).
    repeat split.
  - exact Hinc.
  - intros Heq Hnan. apply Hinc. rewrite Heq. apply FloatFacts.geb_refl, Hnan.
Qed.

(** C6. [__init__] raises [ValueError] exactly when [patience < 1] or
    [min_delta < 0]; with [patience >= 1] and [min_delta >= 0] it returns a
    guard holding the arguments, [counter = 0] and no best score. *)
Theorem init_validation (p : Z) (d : float) (c : bool) :
  ((exists msg, __init__ p d c = inl (ValueError msg))
   <-> (p < 1 \/ PrimFloat.ltb d 0 = true))
  /\ (1 <= p -> float_geb d 0 = true ->
      __init__ p d c = inr (mk p d c 0 None)).
Proof.
  unfold __init__, float_geb. split; [split|].
  - intros [msg Hraise].
    destruct (p <? 1) eqn:Hp; [left; apply Z.ltb_lt, Hp|].
    destruct (PrimFloat.ltb d 0); [right; reflexivity | discriminate].
  - intros [Hp|Hd].
    + apply Z.ltb_lt in Hp. rewrite Hp. eexists; reflexivity.
    + rewrite Hd. destruct (p <? 1); eexists; reflexivity.
  - intros Hp Hd. apply Z.ltb_ge in Hp.
    rewrite Hp, (FloatFacts.nonneg_not_neg d Hd). reflexivity.
Qed.

End Calls.

(** ** Worked calls on concrete guards *)

Section Worked.

Import Examples.

Lemma patience_window_witness :
  __init__ 3 0 false = inr (mk 3 0 false 0 None)
  /\ result (run [(w, 1); (w, 2); (w, 2)]%float
               (state (check_loss w 1 (mk 3 0 false 0 None))))
     = [true; true; false].
Proof.
  split; [reflexivity|].
  apply (patience_window 3 0 false (mk 3 0 false 0 None) w 1
           [(w, 1); (w, 2); (w, 2)]%float); reflexivity.
Defined.

(** C2. The code departs from the claim, and from the class docstring
    (an improvement is a higher score, by more than [min_delta]): on the
    guard built with [patience = 3] and [min_delta = 0] and first called
    with [0], so that the best score is [S = 0], the score
    [S + min_delta + eps = 1] for [eps = 1] takes the no-improvement branch.
    The counter is not put back to [0]; the call increments it to [1]. *)
Lemma higher_score_does_not_reset :
  __init__ 3 0 false = inr (mk 3 0 false 0 None)
  /\ state (check_loss w 0 (mk 3 0 false 0 None)) = mk 3 0 false 0 (Some 0%float)
  /\ PrimFloat.ltb 0 1 = true
  /\ counter (state (check_loss w (0 + 0 + 1) (mk 3 0 false 0 (Some 0%float)))) = 1
  /\ ~ (counter (state (check_loss w (0 + 0 + 1) (mk 3 0 false 0 (Some 0%float)))) = 0
        /\ best_score (state (check_loss w (0 + 0 + 1) (mk 3 0 false 0 (Some 0%float))))
           = Some (0 + 0 + 1)%float).
Proof.
  repeat split. intros [Hcounter _]. vm_compute in Hcounter. discriminate Hcounter.
Qed.

Lemma reset_threshold_witness :
  counter (state (check_loss w 0.25 (mk 3 0.5 false 2 (Some 1%float)))) = 0
  /\ counter (state (check_loss w 0.5 (mk 3 0.5 false 2 (Some 1%float)))) = 3.
Proof.
  split.
  - apply (reset_threshold (mk 3 0.5 false 2 (Some 1%float)) w 1 0.25 eq_refl).
    reflexivity.
  - apply (reset_threshold (mk 3 0.5 false 2 (Some 1%float)) w 1 0.5 eq_refl);
      reflexivity.
Defined.

(** C3, as stated, fails: with [patience = 1] the second call stops, and
    the third, an improvement, answers [True] again. *)
Lemma continue_after_stop :
  __init__ 1 0 false = inr (mk 1 0 false 0 None)
  /\ result (run [(w, 1); (w, 1); (w, 0.5)]%float (mk 1 0 false 0 None))
     = [true; false; true]
  /\ counter (state (run [(w, 1); (w, 1)]%float (mk 1 0 false 0 None)))
     = patience (mk 1 0 false 0 None).
Proof. repeat split. Qed.

Lemma stop_until_improvement_witness :
  result (check_loss w 1 (mk 1 0 false 0 (Some 1%float))) = false
  /\ result (run [(w, 1); (w, 3)]%float
               (state (check_loss w 1 (mk 1 0 false 0 (Some 1%float)))))
     = [false; false]
  /\ result (check_loss w 0.5
               (state (run [(w, 1); (w, 3)]%float
                         (state (check_loss w 1 (mk 1 0 false 0 (Some 1%float)))))))
     = true
  /\ result (check_loss w 0.5
               (state (check_loss w 1 (mk 1 0 false 0 (Some 1%float))))) = true.
Proof.
  pose proof (stop_until_improvement (mk 1 0 false 0 (Some 1%float)) w 1
                [(w, 1); (w, 3)]%float eq_refl) as Hstop.
  cbn zeta in Hstop.
  destruct Hstop as [Hfalse [Hrun Himp]]; [vm_compute; discriminate|].
  destruct (Hrun eq_refl) as [Hrest Hlater].
  split; [exact Hfalse|]. split; [exact Hrest|].
  split; [exact (proj1 (Hlater w 0.5%float eq_refl))|].
  exact (proj1 (Himp w 0.5%float eq_refl)).
Defined.

(** C4, as stated, fails: on the guard built with [cumulative_delta] off
    and first called with [1], the call with score [2] changes [best_score]
    from [1] to [2] and writes no checkpoint; it only prints the counter. *)
Lemma best_score_raised_without_save :
  __init__ 3 0 false = inr (mk 3 0 false 0 None)
  /\ state (check_loss w 1 (mk 3 0 false 0 None)) = mk 3 0 false 0 (Some 1%float)
  /\ best_score (state (check_loss w 2 (mk 3 0 false 0 (Some 1%float))))
     = Some 2%float
  /\ effects (check_loss w 2 (mk 3 0 false 0 (Some 1%float))) = [Print 1]
  /\ ~ (best_score (state (check_loss w 2 (mk 3 0 false 0 (Some 1%float))))
        <> best_score (mk 3 0 false 0 (Some 1%float)) ->
        existsb is_save (effects (check_loss w 2 (mk 3 0 false 0 (Some 1%float))))
        = true).
Proof.
  repeat split. intros Hclaim.
  assert (Hsave : existsb is_save
                    (effects (check_loss w 2 (mk 3 0 false 0 (Some 1%float))))
                  = true).
  { apply Hclaim. intros Hsame.
    apply (f_equal (fun b => match b with
                             | Some x => PrimFloat.eqb x 1
                             | None => false
                             end)) in Hsame.
    vm_compute in Hsame. discriminate Hsame. }
  vm_compute in Hsave. discriminate Hsave.
Qed.

Lemma checkpoint_on_reset_witness :
  effects (check_loss w 0.5 (mk 3 0 true 1 (Some 1%float)))
  = [TorchSave (state_dict w) "checkpoint.pth"]
  /\ effects (check_loss w 2 (mk 3 0 true 1 (Some 1%float))) = [Print 2].
Proof.
  split.
  - exact (proj1 (proj1 (checkpoint_on_reset
                           (mk 3 0 true 1 (Some 1%float)) w 0.5) eq_refl)).
  - exact (proj1 (proj2 (checkpoint_on_reset
                           (mk 3 0 true 1 (Some 1%float)) w 2)) eq_refl).
Defined.

Lemma best_seen_tracking_witness :
  best_score (state (check_loss w 2 (mk 3 0 false 0 (Some 1%float)))) = Some 2%float
  /\ best_score (state (check_loss w 2 (mk 3 0 true 0 (Some 1%float)))) = Some 1%float
  /\ counter (state (check_loss w 2 (mk 3 0 false 0 (Some 1%float)))) = 1.
Proof.
  split; [|split].
  - apply (best_seen_tracking (mk 3 0 false 0 (Some 1%float)) w 1 2);
      reflexivity.
  - apply (best_seen_tracking (mk 3 0 true 0 (Some 1%float)) w 1 2);
      reflexivity.
  - apply (best_seen_tracking (mk 3 0 false 0 (Some 1%float)) w 1 2);
      reflexivity.
Defined.

Lemma init_validation_witness :
  __init__ 5 0.125 true = inr (mk 5 0.125 true 0 None).
Proof.
  apply (init_validation 5 0.125 true); [lia | reflexivity].
Defined.

Lemma first_call_witness :
  check_loss w 7.5 (mk 2 0 false 0 None)
  = (true, mk 2 0 false 0 (Some 7.5%float), [TorchSave (state_dict w) "checkpoint.pth"]).
Proof.
  apply (first_call 2 0 false (mk 2 0 false 0 None) w 7.5). reflexivity.
Defined.

Lemma frame_and_counter_witness :
  0 <= counter (mk 2 0 false 0 None)
  /\ 0 <= counter (state (check_loss w 7.5 (mk 2 0 false 0 None))).
Proof.
  apply (frame_and_counter (mk 2 0 false 0 None) w 7.5).
  apply (reachable_init 2 0 false). reflexivity.
Defined.

End Worked.

End EarlyStopperFacts.

(** * Properties of the gap filling *)

Module InterpolateFacts.
Import InterpolatePreprocess.

Lemma ffill_from_length (col : list float) :
  forall last, List.length (ffill_from last col) = List.length col.
Proof.
  induction col as [|x rest IH]; intros last; cbn; [reflexivity|].
  destruct (isna x); cbn; rewrite IH; reflexivity.
Qed.

Lemma bfill_length (col : list float) :
  List.length (bfill col) = List.length col.
Proof.
  induction col as [|x rest IH]; cbn; [reflexivity|]. rewrite IH. reflexivity.
Qed.

(** A value that is present stays in its row. *)
Lemma ffill_from_keeps (col : list float) :
  forall last i x,
    nth_error col i = Some x -> isna x = false ->
    nth_error (ffill_from last col) i = Some x.
Proof.
  induction col as [|y rest IH]; intros last [|i] x Hnth Hx; cbn in *;
    try discriminate.
  - injection Hnth as ->. rewrite Hx. reflexivity.
  - destruct (isna y); cbn; apply IH; assumption.
Qed.

Lemma bfill_keeps (col : list float) :
  forall i x,
    nth_error col i = Some x -> isna x = false ->
    nth_error (bfill col) i = Some x.
Proof.
  induction col as [|y rest IH]; intros [|i] x Hnth Hx; cbn in *;
    try discriminate.
  - injection Hnth as ->. rewrite Hx. reflexivity.
  - apply IH; assumption.
Qed.

Lemma fill_keeps (col : list float) (i : nat) (x : float) :
  nth_error col i = Some x -> isna x = false ->
  nth_error (bfill (ffill col)) i = Some x.
Proof.
  intros Hnth Hx. apply bfill_keeps; [|exact Hx].
  apply ffill_from_keeps; assumption.
Qed.

(** What [back_forward_generic] does to the column under a label. *)
Lemma column_back_forward (df : DataFrame float) (cols : list string)
    (label : string) :
  column (back_forward_generic df cols) label
  = option_map (fun col => if existsb (String.eqb label) cols
                           then bfill (ffill col) else col)
      (column df label).
Proof.
  unfold column, back_forward_generic.
  induction df as [|[name col] rest IH]; cbn; [reflexivity|].
  destruct (existsb (String.eqb name) cols) eqn:Hnamed; cbn;
    destruct (String.eqb name label) eqn:Hlabel; cbn; try exact IH;
    apply String.eqb_eq in Hlabel; subst name; rewrite Hnamed; reflexivity.
Qed.

(** C8. On the column [100, NaN, NaN, 165, NaN] the fill leaves 165 in row 3
    and puts 100 in rows 1 and 2; on any table it keeps the column labels
    and the row count of every column, hands back every column that is not
    named as it was, and leaves every value that was present in its row. *)
Theorem back_forward_example_and_shape :
  (forall others : DataFrame float,
     column (back_forward_generic
               (("NumberOfAnimals"%string, [100; nan; nan; 165; nan]%float)
                  :: others)
               ["NumberOfAnimals"%string]) "NumberOfAnimals"
     = Some [100; 100; 100; 165; 165]%float)
  /\ (forall (df : DataFrame float) (cols : list string),
        columns (back_forward_generic df cols) = columns df
        /\ row_counts (back_forward_generic df cols) = row_counts df)
  /\ (forall (df : DataFrame float) (cols : list string) (label : string),
        existsb (String.eqb label) cols = false ->
        column (back_forward_generic df cols) label = column df label)
  /\ (forall (df : DataFrame float) (cols : list string) (label : string)
             (col : list float) (i : nat) (x : float),
        column df label = Some col ->
        nth_error col i = Some x -> isna x = false ->
        exists col', column (back_forward_generic df cols) label = Some col'
                     /\ nth_error col' i = Some x).
Proof.
  split; [|split; [|split]].
  - intros others. rewrite column_back_forward. reflexivity.
  - intros df cols. unfold columns, row_counts, back_forward_generic.
    rewrite !map_map. split; apply map_ext; intros [name col];
      destruct (existsb (String.eqb (fst (name, col))) cols); cbn;
      rewrite ?bfill_length; unfold ffill; rewrite ?ffill_from_length;
      reflexivity.
  - intros df cols label Hlabel. rewrite column_back_forward, Hlabel.
    destruct (column df label); reflexivity.
  - intros df cols label col i x Hcol Hnth Hx.
    rewrite column_back_forward, Hcol. cbn.
    destruct (existsb (String.eqb label) cols); eexists; split;
      try reflexivity; [apply fill_keeps|]; assumption.
Qed.

Lemma back_forward_example_and_shape_witness :
  column (back_forward_generic Examples.farm ["NumberOfAnimals"%string]) "Rain"
  = column Examples.farm "Rain"
  /\ exists col',
       column (back_forward_generic Examples.farm ["NumberOfAnimals"%string])
         "NumberOfAnimals" = Some col'
       /\ nth_error col' 3 = Some 165%float.
Proof.
  destruct back_forward_example_and_shape as [_ [_ [Hother Hkeep]]].
  split.
  - apply Hother. reflexivity.
  - apply (Hkeep Examples.farm ["NumberOfAnimals"%string] "NumberOfAnimals"%string
             [100; nan; nan; 165; nan]%float 3%nat 165%float); reflexivity.
Defined.

End InterpolateFacts.

(** * Properties of the cyclical encoding *)

Module TemporalFacts.
Import TemporalFeats.

Local Open Scope R_scope.

Lemma angle_hour_0 : angle 0 24 = 0.
Proof. unfold angle. field. Qed.

Lemma angle_hour_6 : angle 6 24 = PI / 2.
Proof. unfold angle. field. Qed.

Lemma nth_error_sin (field : Timestamp -> Z) (period : Z)
    (times : list Timestamp) (i : nat) (ts : Timestamp) :
  nth_error times i = Some ts ->
  nth_error (sin_feature field period times) i
  = Some (CNum (sin (angle (field ts) period))).
Proof.
  intros Hnth. unfold sin_feature. rewrite nth_error_map, Hnth. reflexivity.
Qed.

Lemma nth_error_cos (field : Timestamp -> Z) (period : Z)
    (times : list Timestamp) (i : nat) (ts : Timestamp) :
  nth_error times i = Some ts ->
  nth_error (cos_feature field period times) i
  = Some (CNum (cos (angle (field ts) period))).
Proof.
  intros Hnth. unfold cos_feature. rewrite nth_error_map, Hnth. reflexivity.
Qed.

(** C9. On a table whose time column parses as timestamps, the cyclical
    encoding of a known unit hands back the table followed by exactly two
    columns, [sin_<unit>] and [cos_<unit>], holding the sine and the cosine
    of [2π * value / period]; for the hour (period 24), a row whose hour is
    0 gets sine 0 and cosine 1, and a row whose hour is 6 gets sine 1 and
    cosine 0. *)
Theorem cyclical_encoding (df : DataFrame Cell) (dt_column unit : string)
    (col : list Cell) (times : list Timestamp)
    (field : Timestamp -> Z) (period : Z) :
  column df dt_column = Some col ->
  parse_times col = Some times ->
  unit_field unit = Some (field, period) ->
  exists sines cosines : list Cell,
    feature_fix [(unit, "cyclical"%string)] dt_column df
    = inr (df ++ [(String.append "sin_" unit, sines);
                  (String.append "cos_" unit, cosines)])
    /\ sines = map (fun ts => CNum (sin (2 * PI * IZR (field ts) / IZR period))) times
    /\ cosines = map (fun ts => CNum (cos (2 * PI * IZR (field ts) / IZR period))) times
    /\ (unit = "hour"%string ->
        forall (i : nat) (ts : Timestamp),
          nth_error times i = Some ts ->
          (hour ts = 0%Z ->
             nth_error sines i = Some (CNum 0)
             /\ nth_error cosines i = Some (CNum 1))
          /\ (hour ts = 6%Z ->
             nth_error sines i = Some (CNum 1)
             /\ nth_error cosines i = Some (CNum 0))).
Proof.
  intros Hcol Hparse Hunit.
  exists (sin_feature field period times), (cos_feature field period times).
  split; [|split; [|split]].
  - unfold feature_fix. rewrite Hcol, Hparse. cbn. rewrite Hunit. reflexivity.
  - reflexivity.
  - reflexivity.
  - intros -> i ts Hnth. cbn in Hunit. injection Hunit as <- <-.
    rewrite (nth_error_sin hour 24 times i ts Hnth),
            (nth_error_cos hour 24 times i ts Hnth).
    split; intros ->.
    + rewrite angle_hour_0, sin_0, cos_0. split; reflexivity.
    + rewrite angle_hour_6, sin_PI2, cos_PI2. split; reflexivity.
Qed.

Lemma cyclical_encoding_witness :
  exists sines cosines : list Cell,
    feature_fix [("hour"%string, "cyclical"%string)] "datetime" Examples.readings
    = inr (Examples.readings ++ [("sin_hour"%string, sines);
                                 ("cos_hour"%string, cosines)])
    /\ nth_error sines 0 = Some (CNum 0) /\ nth_error cosines 0 = Some (CNum 1)
    /\ nth_error sines 1 = Some (CNum 1) /\ nth_error cosines 1 = Some (CNum 0).
Proof.
  destruct (cyclical_encoding Examples.readings "datetime" "hour"
              (map CTime Examples.stamps) Examples.stamps hour 24%Z
              eq_refl eq_refl eq_refl)
    as [sines [cosines [Hfix [_ [_ Hhour]]]]].
  exists sines, cosines. split; [exact Hfix|].
  destruct (Hhour eq_refl 0%nat (mkTimestamp 2020 3 14 0 5) eq_refl) as [H0 _].
  destruct (Hhour eq_refl 1%nat (mkTimestamp 2020 3 14 6 5) eq_refl) as [_ H6].
  destruct (H0 eq_refl) as [Hs0 Hc0]. destruct (H6 eq_refl) as [Hs6 Hc6].
  repeat split; assumption.
Defined.

End TemporalFacts.

(** * More on floats: NaN and adding zero *)

Module FloatEdge.

Lemma Prim2SF_nan (x : float) :
  PrimFloat.is_nan x = true -> Prim2SF x = S754_nan.
Proof. intros Hnan. unfold Prim2SF. rewrite Hnan. reflexivity. Qed.

(** Python's [>=] answers [False] when either side is a NaN. *)
Lemma geb_nan_l (x y : float) :
  Prim2SF x = S754_nan -> float_geb x y = false.
Proof.
  intros Hx. unfold float_geb. rewrite leb_spec, Hx. unfold SFleb.
  destruct (Prim2SF y); reflexivity.
Qed.

Lemma geb_nan_r (x y : float) :
  Prim2SF y = S754_nan -> float_geb x y = false.
Proof.
  intros Hy. unfold float_geb. rewrite leb_spec, Hy. reflexivity.
Qed.

(** A sum with a NaN operand is a NaN. *)
Lemma add_nan_l (x y : float) :
  Prim2SF x = S754_nan -> Prim2SF (x + y)%float = S754_nan.
Proof. intros Hx. rewrite add_spec, Hx. reflexivity. Qed.

Lemma add_nan_r (x y : float) :
  Prim2SF y = S754_nan -> Prim2SF (x + y)%float = S754_nan.
Proof.
  intros Hy. rewrite add_spec, Hy. unfold SF64add.
  destruct (Prim2SF x); reflexivity.
Qed.

(** A NaN is not below zero, so [__init__] lets it through. *)
Lemma nan_not_neg (d : float) :
  PrimFloat.is_nan d = true -> PrimFloat.ltb d 0 = false.
Proof.
  intros Hnan. rewrite ltb_spec, (Prim2SF_nan d Hnan). reflexivity.
Qed.

(** Away from NaN, [x + 0.0 >= x]. *)
Lemma geb_add_zero (x : float) :
  PrimFloat.is_nan x = false -> float_geb (x + 0)%float x = true.
Proof.
  unfold PrimFloat.is_nan, float_geb.
  rewrite eqb_spec, leb_spec, add_spec, FloatFacts.Prim2SF_zero.
  unfold SFeqb, SFleb, SF64add.
  destruct (Prim2SF x) as [s | s | | s m e]; try destruct s; cbn;
    try congruence.
  - destruct (e ?= e)%Z; try congruence;
      destruct (Pos.compare_cont Eq m m); cbn; congruence.
  - destruct (e ?= e)%Z; try congruence;
      destruct (Pos.compare_cont Eq m m); cbn; congruence.
Qed.

End FloatEdge.

(** * The guard over whole runs: invariants, edge scores and the checkpoint file *)

Module EarlyStopperRuns.
Import EarlyStopper EarlyStopperFacts.

Section Runs.

Context {M : Type} `{TorchModule M}.

(** *** How [run] unfolds *)

Lemma run_step (model : M) (score : float) (rest : list (M * float)) (self : t) :
  state (run ((model, score) :: rest) self)
  = state (run rest (state (check_loss model score self)))
  /\ effects (run ((model, score) :: rest) self)
     = effects (check_loss model score self)
       ++ effects (run rest (state (check_loss model score self))).
Proof.
  cbn [run]. unfold bind, ret, state, effects.
  destruct (check_loss model score self) as [[b self1] out1]. cbn.
  destruct (run rest self1) as [[bs self2] out2]. cbn.
  rewrite app_nil_r. split; reflexivity.
Qed.

Lemma perform_app (out1 out2 : list (Effect StateDict)) :
  forall fs : Files, perform (out1 ++ out2) fs = perform out2 (perform out1 fs).
Proof.
  induction out1 as [|e out1 IH]; intros fs; cbn; [reflexivity | apply IH].
Qed.

(** The call that does not take the no-improvement branch, by what a
    caller sees. *)
Lemma reset_step (self : t) (model : M) (score : float) :
  no_improvement self score = false ->
  result (check_loss model score self) = true
  /\ best_score (state (check_loss model score self)) = Some score
  /\ effects (check_loss model score self)
     = [TorchSave (state_dict model) "checkpoint.pth"]
  /\ min_delta (state (check_loss model score self)) = min_delta self.
Proof.
  intros Hn. rewrite (no_improvement_false self model score Hn).
  repeat split.
Qed.

(** X1. The answer is [False] exactly on a no-improvement call whose
    incremented counter meets [patience]; such a call writes no file. *)
Theorem stop_iff (self : t) (model : M) (score : float) :
  (result (check_loss model score self) = false
   <-> no_improvement self score = true /\ patience self <= counter self + 1)
  /\ (result (check_loss model score self) = false ->
      effects (check_loss model score self) = [Print (counter self + 1)]
      /\ forall fs : Files,
           perform (effects (check_loss model score self)) fs = fs).
Proof.
  destruct (no_improvement self score) eqn:Hn.
  - destruct (no_improvement_true self score Hn) as [b [Hb Hge]].
    rewrite (check_loss_elif self model score b Hb Hge).
    unfold result, effects. cbn [fst snd].
    rewrite negb_false_iff, Z.geb_le. split; [split|].
    + intros Hle. split; [reflexivity | exact Hle].
    + intros [_ Hle]. exact Hle.
    + intros _. split; reflexivity.
  - destruct (reset_step self model score Hn) as [Hres _].
    rewrite Hres. split; [split|]; try discriminate.
    intros [Hfalse _]. discriminate Hfalse.
Qed.

(** X2. After any call a best score is recorded, and on every guard
    obtained from [__init__] by calls: [patience >= 1], [min_delta] is not
    below zero, and a guard without a best score is still as [__init__]
    built it (counter [0]). *)
Theorem reachable_invariant (self : t) :
  (forall (model : M) (score : float),
      best_score (state (check_loss model score self)) <> None)
  /\ (reachable (M:=M) self ->
      1 <= patience self
      /\ PrimFloat.ltb (min_delta self) 0 = false
      /\ (best_score self = None ->
          __init__ (patience self) (min_delta self) (cumulative_delta self)
          = inr self)).
Proof.
  assert (Hsome : forall (g : t) (model : M) (score : float),
             best_score (state (check_loss model score g)) <> None).
  { intros g model score. destruct (no_improvement g score) eqn:Hn.
    - destruct (no_improvement_true g score Hn) as [b [Hb Hge]].
      rewrite (check_loss_elif g model score b Hb Hge). unfold state. cbn.
      destruct (negb (cumulative_delta g) && (b <? score)%float); cbn;
        congruence.
    - destruct (reset_step g model score Hn) as [_ [Hb _]]. congruence. }
  split; [apply Hsome|].
  induction 1 as [p d c self Hinit | self model score Hreach IH].
  - destruct (init_ok p d c self Hinit) as [Hp [Hd ->]]. cbn.
    repeat split; try assumption. intros _. exact Hinit.
  - destruct IH as [Hp [Hd _]].
    destruct (check_loss_frame self model score) as [Hp' [Hd' _]].
    rewrite Hp', Hd'. repeat split; try assumption.
    intros Hnone. destruct (Hsome self model score Hnone).
Qed.

(** *** Runs of no-improvement calls *)

(** X3. Over a run of no-improvement calls the counter grows by the number
    of calls, no file is written, and with [cumulative_delta] set the best
    score stays where it was. *)
Theorem no_improvement_run (calls : list (M * float)) :
  forall self : t,
    all_no_improvement calls self = true ->
    counter (state (run calls self)) = counter self + Z.of_nat (List.length calls)
    /\ (forall fs : Files, perform (effects (run calls self)) fs = fs)
    /\ (cumulative_delta self = true ->
        best_score (state (run calls self)) = best_score self).
Proof.
  induction calls as [|[model score] rest IH]; intros self Hall.
  - cbn. repeat split. lia.
  - cbn [all_no_improvement] in Hall. apply andb_true_iff in Hall.
    destruct Hall as [Hn Hrest].
    destruct (run_step model score rest self) as [Hst Heff].
    destruct (IH _ Hrest) as [Hc [Hfs Hbest]].
    destruct (elif_step self model score Hn) as [_ [Hc1 _]].
    destruct (check_loss_frame self model score) as [_ [_ [Hcd _]]].
    destruct (no_improvement_true self score Hn) as [b [Hb Hge]].
    rewrite Hst, Heff. split; [|split].
    + rewrite Hc, Hc1. cbn [List.length]. lia.
    + intros fs. rewrite perform_app, Hfs.
      rewrite (check_loss_elif self model score b Hb Hge). reflexivity.
    + intros Hcum. rewrite Hbest by (rewrite Hcd; exact Hcum).
      rewrite (check_loss_elif self model score b Hb Hge), Hcum. reflexivity.
Qed.

(** X4. As long as the counter stays short of [patience], no-improvement
    calls all answer [True]: the guard never stops early. *)
Theorem no_early_stop (calls : list (M * float)) :
  forall self : t,
    all_no_improvement calls self = true ->
    counter self + Z.of_nat (List.length calls) < patience self ->
    result (run calls self) = repeat true (List.length calls).
Proof.
  induction calls as [|[model score] rest IH]; intros self Hall Hlt.
  - reflexivity.
  - cbn [all_no_improvement] in Hall. apply andb_true_iff in Hall.
    destruct Hall as [Hn Hrest].
    destruct (elif_step self model score Hn) as [Hres [Hc Hp]].
    cbn [List.length] in Hlt.
    rewrite run_cons, Hres, IH; [ | exact Hrest | rewrite Hc, Hp; lia ].
    replace (counter self + 1 >=? patience self) with false
      by (symmetry; apply not_true_is_false; rewrite Z.geb_le; lia).
    reflexivity.
Qed.

(** *** A plateau *)

Lemma plateau_no_improvement (model : M) (s : float) (n : nat) :
  forall self : t,
    best_score self = Some s ->
    min_delta self = 0%float ->
    PrimFloat.is_nan s = false ->
    all_no_improvement (repeat (model, s) n) self = true.
Proof.
  induction n as [|n IH]; intros self Hb Hd Hs; [reflexivity|].
  cbn [repeat all_no_improvement].
  assert (Hge : float_geb (s + min_delta self)%float s = true)
    by (rewrite Hd; apply FloatEdge.geb_add_zero, Hs).
  apply andb_true_iff. split.
  - unfold no_improvement. rewrite Hb. exact Hge.
  - apply IH; [ | | exact Hs];
      rewrite (check_loss_elif self model s s Hb Hge); unfold state; cbn.
    + destruct (negb (cumulative_delta self) && (s <? s)%float); cbn;
        [reflexivity | exact Hb].
    + destruct (negb (cumulative_delta self) && (s <? s)%float); cbn;
        exact Hd.
Qed.

(** X5. With [min_delta = 0], a loss that stays at the same value [s]
    (not a NaN) stops the training on the [patience]-th repetition after
    the first call, and not before. *)
Theorem plateau_stops (p : Z) (c : bool) (self : t) (model : M) (s : float) :
  __init__ p 0 c = inr self ->
  PrimFloat.is_nan s = false ->
  result (run (repeat (model, s) (S (Z.to_nat p))) self)
  = repeat true (Z.to_nat p) ++ [false].
Proof.
  intros Hinit Hs. destruct (init_ok p 0 c self Hinit) as [Hp [_ ->]].
  cbn [repeat]. rewrite run_cons, check_loss_first by reflexivity.
  unfold result at 1, state. cbn [fst snd].
  rewrite (countdown (repeat (model, s) (Z.to_nat p))).
  - rewrite repeat_length.
    replace (Z.to_nat p) with (S (Z.to_nat p - 1)) at 2 by lia.
    reflexivity.
  - destruct (Z.to_nat p) eqn:Hnat; [lia | discriminate].
  - rewrite repeat_length. cbn. lia.
  - apply plateau_no_improvement; [reflexivity | reflexivity | exact Hs].
Qed.

(** *** NaN scores and a NaN [min_delta] *)

Lemma nan_score_resets (self : t) (score : float) :
  PrimFloat.is_nan score = true -> no_improvement self score = false.
Proof.
  intros Hnan. unfold no_improvement. destruct (best_score self); [|reflexivity].
  apply FloatEdge.geb_nan_l, FloatEdge.add_nan_l, FloatEdge.Prim2SF_nan, Hnan.
Qed.

Lemma nan_best_resets (self : t) (best score : float) :
  best_score self = Some best -> PrimFloat.is_nan best = true ->
  no_improvement self score = false.
Proof.
  intros Hb Hnan. unfold no_improvement. rewrite Hb.
  apply FloatEdge.geb_nan_r, FloatEdge.Prim2SF_nan, Hnan.
Qed.

(** X6. A NaN score never counts against patience: on any guard the call
    answers [True], saves the checkpoint and records the NaN as best score;
    and the call after it, whatever its score, again answers [True], saves
    and leaves the counter at [0]. *)
Theorem nan_score_is_improvement (self : t) (model : M) (score : float) :
  PrimFloat.is_nan score = true ->
  let self1 := state (check_loss model score self) in
  result (check_loss model score self) = true
  /\ best_score self1 = Some score
  /\ effects (check_loss model score self)
     = [TorchSave (state_dict model) "checkpoint.pth"]
  /\ (forall (model' : M) (score' : float),
        result (check_loss model' score' self1) = true
        /\ counter (state (check_loss model' score' self1)) = 0
        /\ effects (check_loss model' score' self1)
           = [TorchSave (state_dict model') "checkpoint.pth"]).
Proof.
  intros Hnan. cbn zeta.
  destruct (reset_step self model score (nan_score_resets self score Hnan))
    as [Hres [Hb [Heff _]]].
  remember (state (check_loss model score self)) as self1 eqn:Hself1.
  split; [exact Hres|]. split; [exact Hb|]. split; [exact Heff|].
  intros model' score'.
  pose proof (nan_best_resets self1 score score' Hb Hnan) as Hn.
  rewrite (no_improvement_false self1 model' score' Hn).
  unfold result, state, effects. cbn. rewrite Hb. repeat split.
Qed.

(** *** Runs of resets *)

Lemma all_reset_run (calls : list (M * float)) :
  forall self : t,
    all_reset calls self = true ->
    result (run calls self) = repeat true (List.length calls)
    /\ effects (run calls self)
       = map (fun call => TorchSave (state_dict (fst call)) "checkpoint.pth") calls.
Proof.
  induction calls as [|[model score] rest IH]; intros self Hall.
  - split; reflexivity.
  - cbn [all_reset] in Hall. apply andb_true_iff in Hall.
    destruct Hall as [Hn Hrest]. apply negb_true_iff in Hn.
    destruct (reset_step self model score Hn) as [Hres [_ [Heff _]]].
    destruct (run_step model score rest self) as [_ Hout].
    destruct (IH _ Hrest) as [IHres IHeff].
    rewrite run_cons, Hres, IHres, Hout, Heff, IHeff. split; reflexivity.
Qed.

Lemma nan_min_delta_all_reset (calls : list (M * float)) :
  forall self : t,
    PrimFloat.is_nan (min_delta self) = true ->
    all_reset calls self = true.
Proof.
  induction calls as [|[model score] rest IH]; intros self Hnan; [reflexivity|].
  cbn [all_reset].
  assert (Hn : no_improvement self score = false).
  { unfold no_improvement. destruct (best_score self); [|reflexivity].
    apply FloatEdge.geb_nan_l, FloatEdge.add_nan_r, FloatEdge.Prim2SF_nan, Hnan. }
  rewrite Hn. cbn [negb andb]. apply IH.
  destruct (check_loss_frame self model score) as [_ [Hd _]].
  rewrite Hd. exact Hnan.
Qed.

(** X7. [__init__] accepts a NaN [min_delta] (it is not below zero), and a
    guard built with one never stops: every call of every run answers
    [True] and saves the checkpoint. *)
Theorem nan_min_delta_never_stops (p : Z) (d : float) (c : bool)
    (calls : list (M * float)) :
  1 <= p ->
  PrimFloat.is_nan d = true ->
  __init__ p d c = inr (mk p d c 0 None)
  /\ result (run calls (mk p d c 0 None)) = repeat true (List.length calls)
  /\ effects (run calls (mk p d c 0 None))
     = map (fun call => TorchSave (state_dict (fst call)) "checkpoint.pth") calls.
Proof.
  intros Hp Hnan. split.
  - unfold __init__. apply Z.ltb_ge in Hp.
    rewrite Hp, (FloatEdge.nan_not_neg d Hnan). reflexivity.
  - apply all_reset_run, nan_min_delta_all_reset. exact Hnan.
Qed.

(** *** The checkpoint file *)

Lemma call_effects (self : t) (model : M) (score : float) :
  effects (check_loss model score self)
  = if no_improvement self score
    then [Print (counter self + 1)]
    else [TorchSave (state_dict model) "checkpoint.pth"%string].
Proof.
  destruct (no_improvement self score) eqn:Hn.
  - destruct (no_improvement_true self score Hn) as [b [Hb Hge]].
    rewrite (check_loss_elif self model score b Hb Hge). reflexivity.
  - apply (reset_step self model score Hn).
Qed.

Lemma run_app (calls1 calls2 : list (M * float)) :
  forall self : t,
    result (run (calls1 ++ calls2) self)
    = result (run calls1 self) ++ result (run calls2 (state (run calls1 self)))
    /\ state (run (calls1 ++ calls2) self)
       = state (run calls2 (state (run calls1 self)))
    /\ effects (run (calls1 ++ calls2) self)
       = effects (run calls1 self)
         ++ effects (run calls2 (state (run calls1 self))).
Proof.
  induction calls1 as [|[model score] rest IH]; intros self.
  - repeat split.
  - cbn [app].
    destruct (run_step model score (rest ++ calls2) self) as [Hst Heff].
    destruct (run_step model score rest self) as [Hst1 Heff1].
    destruct (IH (state (check_loss model score self))) as [IHr [IHs IHe]].
    rewrite !run_cons, Hst, Heff, Hst1, Heff1, IHr, IHs, IHe, app_assoc.
    repeat split.
Qed.

Lemma run_other_paths (calls : list (M * float)) (path : string) :
  path <> "checkpoint.pth"%string ->
  forall (self : t) (fs : Files),
    perform (effects (run calls self)) fs path = fs path.
Proof.
  intros Hpath. induction calls as [|[model score] rest IH]; intros self fs.
  - reflexivity.
  - destruct (run_step model score rest self) as [_ Heff].
    rewrite Heff, perform_app, IH, call_effects.
    destruct (no_improvement self score); cbn; [reflexivity|].
    unfold torch_save. apply String.eqb_neq in Hpath. rewrite Hpath.
    reflexivity.
Qed.

(** X8. The only file a run ever writes is ["checkpoint.pth"], and after a
    run extended by one more call that file holds the [state_dict()] of that
    call's model if the call took the first-call or the reset branch, and
    what it held before the call otherwise. *)
Theorem checkpoint_file (calls : list (M * float)) (model : M) (score : float)
    (self : t) (fs : Files) :
  perform (effects (run (calls ++ [(model, score)]) self)) fs "checkpoint.pth"%string
  = (if no_improvement (state (run calls self)) score
     then perform (effects (run calls self)) fs "checkpoint.pth"%string
     else Some (state_dict model))
  /\ (forall path : string,
        path <> "checkpoint.pth"%string ->
        perform (effects (run (calls ++ [(model, score)]) self)) fs path = fs path).
Proof.
  split; [|intros path Hpath; apply run_other_paths, Hpath].
  destruct (run_app calls [(model, score)] self) as [_ [_ Heff]].
  destruct (run_step model score [] (state (run calls self))) as [_ Hlast].
  rewrite Heff, perform_app, Hlast, call_effects.
  destruct (no_improvement (state (run calls self)) score); reflexivity.
Qed.

Lemma file_after_run (calls : list (M * float)) :
  forall (self : t) (fs : Files),
    perform (effects (run calls self)) fs "checkpoint.pth"%string = fs "checkpoint.pth"%string
    \/ exists model : M,
         In model (map fst calls)
         /\ perform (effects (run calls self)) fs "checkpoint.pth"%string
            = Some (state_dict model).
Proof.
  induction calls as [|[model score] rest IH]; intros self fs.
  - left. reflexivity.
  - destruct (run_step model score rest self) as [_ Heff].
    rewrite Heff, perform_app.
    destruct (IH (state (check_loss model score self))
                 (perform (effects (check_loss model score self)) fs))
      as [Hsame | [model' [Hin Hfile]]].
    + rewrite Hsame, call_effects.
      destruct (no_improvement self score); [left; reflexivity|].
      right. exists model. split; [left; reflexivity | reflexivity].
    + right. exists model'. split; [right; exact Hin | exact Hfile].
Qed.

(** X9. Once a guard fresh from [__init__] has been called at least once,
    the checkpoint file exists, whatever the scores were, and holds the
    [state_dict()] of one of the models it was called with. *)
Theorem checkpoint_exists (p : Z) (d : float) (c : bool) (self : t)
    (calls : list (M * float)) (fs : Files) :
  __init__ p d c = inr self ->
  calls <> [] ->
  exists model : M,
    In model (map fst calls)
    /\ perform (effects (run calls self)) fs "checkpoint.pth"%string
       = Some (state_dict model).
Proof.
  intros Hinit Hne. destruct (init_ok p d c self Hinit) as [_ [_ ->]].
  destruct calls as [|[model score] rest]; [congruence|].
  destruct (run_step model score rest (mk p d c 0 None)) as [_ Heff].
  rewrite Heff, perform_app.
  destruct (file_after_run rest
              (state (check_loss model score (mk p d c 0 None)))
              (perform (effects (check_loss model score (mk p d c 0 None))) fs))
    as [Hsame | [model' [Hin Hfile]]].
  - exists model. split; [left; reflexivity|].
    rewrite Hsame, call_effects. reflexivity.
  - exists model'. split; [right; exact Hin | exact Hfile].
Qed.

(** X10. Neither the answer nor the new state of a call depends on the
    model handed in: the model is only read to be saved. *)
Theorem model_only_saved (self : t) (model model' : M) (score : float) :
  result (check_loss model score self) = result (check_loss model' score self)
  /\ state (check_loss model score self) = state (check_loss model' score self).
Proof.
  destruct (no_improvement self score) eqn:Hn.
  - destruct (no_improvement_true self score Hn) as [b [Hb Hge]].
    rewrite (check_loss_elif self model score b Hb Hge),
            (check_loss_elif self model' score b Hb Hge).
    split; reflexivity.
  - rewrite (no_improvement_false self model score Hn),
            (no_improvement_false self model' score Hn).
    split; reflexivity.
Qed.

(** X11. With [cumulative_delta] off, a no-improvement call with a score
    [s1] above the best score moves the reference to [s1]: the next score
    is judged against [s1] alone, so a score [s2] with
    [s2 + min_delta >= s1] false saves the checkpoint, becomes the best
    score and puts the counter back to [0], however it compares with the
    best score held before. *)
Theorem reference_follows_last_rise (self : t) (model1 model2 : M)
    (best s1 s2 : float) :
  cumulative_delta self = false ->
  best_score self = Some best ->
  float_geb (s1 + min_delta self)%float best = true ->
  float_gtb s1 best = true ->
  float_geb (s2 + min_delta self)%float s1 = false ->
  let self1 := state (check_loss model1 s1 self) in
  best_score self1 = Some s1
  /\ result (check_loss model2 s2 self1) = true
  /\ effects (check_loss model2 s2 self1)
     = [TorchSave (state_dict model2) "checkpoint.pth"]
  /\ best_score (state (check_loss model2 s2 self1)) = Some s2
  /\ counter (state (check_loss model2 s2 self1)) = 0.
Proof.
  intros Hcum Hb Hge Hgt Hlt. cbn zeta.
  rewrite (check_loss_elif self model1 s1 best Hb Hge), Hcum, Hgt.
  remember (state (negb (counter self + 1 >=? patience self),
                   set_counter (counter self + 1)
                     (if negb false && true
                      then set_best_score (Some s1) self else self),
                   [Print (counter self + 1)])) as self1 eqn:Hself1.
  assert (Hb1 : best_score self1 = Some s1) by (subst self1; reflexivity).
  assert (Hd1 : min_delta self1 = min_delta self) by (subst self1; reflexivity).
  rewrite <- Hd1 in Hlt.
  rewrite (check_loss_else self1 model2 s2 s1 Hb1 Hlt).
  repeat split. exact Hb1.
Qed.

End Runs.

(** ** Worked runs *)

Section WorkedRuns.

Import Examples.

Lemma reachable_invariant_witness :
  1 <= patience (state (check_loss w 1 (mk 2 0 false 0 None)))
  /\ PrimFloat.ltb (min_delta (state (check_loss w 1 (mk 2 0 false 0 None)))) 0
     = false.
Proof.
  destruct (proj2 (reachable_invariant
                     (state (check_loss w 1 (mk 2 0 false 0 None))))
              (reachable_call _ w 1%float
                 (reachable_init 2 0 false (mk 2 0 false 0 None) eq_refl)))
    as [Hp [Hd _]].
  split; [exact Hp | exact Hd].
Defined.

Lemma no_improvement_run_witness :
  counter (state (run [(w, 1); (w, 2)]%float (mk 3 0 true 0 (Some 1%float)))) = 2
  /\ best_score (state (run [(w, 1); (w, 2)]%float (mk 3 0 true 0 (Some 1%float))))
     = Some 1%float.
Proof.
  destruct (no_improvement_run [(w, 1); (w, 2)]%float
              (mk 3 0 true 0 (Some 1%float)) eq_refl) as [Hc [_ Hb]].
  split; [exact Hc | exact (Hb eq_refl)].
Defined.

Lemma no_early_stop_witness :
  result (run [(w, 1); (w, 2)]%float (mk 3 0 false 0 (Some 1%float)))
  = [true; true].
Proof.
  apply (no_early_stop [(w, 1); (w, 2)]%float (mk 3 0 false 0 (Some 1%float)));
    reflexivity.
Defined.

Lemma plateau_stops_witness :
  result (run [(w, 1.5); (w, 1.5); (w, 1.5)]%float (mk 2 0 false 0 None))
  = [true; true; false].
Proof.
  apply (plateau_stops 2 false (mk 2 0 false 0 None) w 1.5); reflexivity.
Defined.

Lemma nan_score_is_improvement_witness :
  result (check_loss w nan (mk 1 0 false 5 (Some 1%float))) = true.
Proof.
  apply (nan_score_is_improvement (mk 1 0 false 5 (Some 1%float)) w nan).
  reflexivity.
Defined.

Lemma nan_min_delta_never_stops_witness :
  __init__ 1 nan false = inr (mk 1 nan false 0 None)
  /\ result (run [(w, 1); (w, 1); (w, 1)]%float (mk 1 nan false 0 None))
     = [true; true; true].
Proof.
  destruct (nan_min_delta_never_stops 1 nan false [(w, 1); (w, 1); (w, 1)]%float)
    as [Hinit [Hres _]]; [lia | reflexivity |].
  split; [exact Hinit | exact Hres].
Defined.

Lemma checkpoint_file_witness :
  perform (effects (run ([(w, 1)] ++ [([2; 3], 0.5)])%float (mk 2 0 false 0 None)))
    (fun _ => None) "log.txt"%string = None.
Proof.
  apply (checkpoint_file [(w, 1%float)] [2; 3]%float 0.5 (mk 2 0 false 0 None)
           (fun _ => None)).
  discriminate.
Defined.

Lemma checkpoint_exists_witness :
  exists model : list float,
    In model (map fst [(w, 1); ([2; 3], 0.5)]%float)
    /\ perform (effects (run [(w, 1); ([2; 3], 0.5)]%float (mk 2 0 false 0 None)))
         (fun _ => None) "checkpoint.pth"%string
       = Some (state_dict model).
Proof.
  apply (checkpoint_exists 2 0 false (mk 2 0 false 0 None)
           [(w, 1); ([2; 3], 0.5)]%float (fun _ => None)).
  - reflexivity.
  - discriminate.
Defined.

Lemma reference_follows_last_rise_witness :
  best_score (state (check_loss w 2 (mk 3 0 false 0 (Some 1%float))))
  = Some 2%float
  /\ effects (check_loss [2; 3]%float 1.5
               (state (check_loss w 2 (mk 3 0 false 0 (Some 1%float)))))
     = [TorchSave (state_dict [2; 3]%float) "checkpoint.pth"].
Proof.
  destruct (reference_follows_last_rise (mk 3 0 false 0 (Some 1%float))
              w [2; 3]%float 1 2 1.5 eq_refl eq_refl eq_refl eq_refl eq_refl)
    as [Hb [_ [Heff _]]].
  split; [exact Hb | exact Heff].
Defined.

End WorkedRuns.

End EarlyStopperRuns.
